(** * Iron condor example strategy: a shallow embedding

    This development models [nautilus_trader/examples/strategies/iron_condor.py]
    (the [IronCondor] strategy and its helpers) and the simplified strategy of
    [strategies/iron_condor.py].

    Python [Decimal] values are modelled as rationals [Q].  The strategy's
    operations ([-], [+], [/ Decimal("0.5")], [* Decimal("0.5")]) are exact
    in the default 28-significant-digit context for prices of at most 27
    significant digits; [calculate_strike_dec] computes [calculate_strike]
    with the context's rounding for every price. *)

From Stdlib Require Import ZArith QArith Qround Qabs Qpower Lqa List String Ascii Bool Lia.
From Stdlib Require Import Sorting.Sorted.
Import ListNotations.
Open Scope Z_scope.

(* ------------------------------------------------------------------ *)
(** ** Decimal helpers *)

(** Python's [round(d)] on a [Decimal] with no digit argument: the nearest
    integer, ties to the even integer ([ROUND_HALF_EVEN]). *)
Definition round_half_even (x : Q) : Z :=
  let f := Qfloor x in
  let r := (x - inject_Z f)%Q in
  match Qcompare r (1 # 2) with
  | Lt => f
  | Gt => f + 1
  | Eq => if Z.even f then f else f + 1
  end.

(** [IronCondor.calculate_strike]:
    [round(price / strike_interval) * strike_interval] with the fixed
    [strike_interval = Decimal("0.5")]. *)
Definition strike_interval : Q := 1 # 2.

Definition calculate_strike (price : Q) : Q :=
  (inject_Z (round_half_even (price / strike_interval)) * strike_interval)%Q.

(** The same computation with Python's [Decimal] arithmetic as it is: in the
    default context every quotient and product is the exact value rounded to
    28 significant digits, ties to even ([prec=28], [ROUND_HALF_EVEN]);
    [round] itself is exact.  The helpers below compute that rounding. *)







(* ------------------------------------------------------------------ *)
(** ** Text formatting *)

Definition digit_char (d : Z) : ascii := ascii_of_nat (48 + Z.to_nat d).

Fixpoint digits_aux (fuel : nat) (n : Z) (acc : string) : string :=
  match fuel with
  | O => acc
  | S f =>
      let acc' := String (digit_char (n mod 10)) acc in
      if n <? 10 then acc' else digits_aux f (n / 10) acc'
  end.

(** Decimal digits of a non-negative integer (as [str(n)]). *)
Definition z_digits (n : Z) : string :=
  digits_aux (S (Z.to_nat (Z.log2 n))) n EmptyString.

Fixpoint repeat_char (n : nat) (c : ascii) : string :=
  match n with
  | O => EmptyString
  | S k => String c (repeat_char k c)
  end.

(** Left padding with a fill character to a minimum width. *)
Definition pad_left (c : ascii) (w : nat) (s : string) : string :=
  (repeat_char (w - String.length s) c ++ s)%string.

(** [f"{float(strike):08.3f}"]: three decimals, zero padded to width 8, the
    sign (if any) before the zeros.  The float conversion and the rounding to
    three places are exact for every strike the strategy formats (multiples of
    [0.5]); the model rounds the exact value half to even at three places. *)
Definition fmt_08_3f (x : Q) : string :=
  let m := Z.abs (round_half_even (x * 1000)) in
  let body := (z_digits (m / 1000) ++ "." ++ pad_left "0" 3 (z_digits (m mod 1000)))%string in
  if negb (Qle_bool 0 x) then ("-" ++ pad_left "0" 7 body)%string
  else pad_left "0" 8 body.

(* ------------------------------------------------------------------ *)
(** ** Datetimes *)

(** A (normalised) [datetime]: calendar date and the time of day in
    microseconds.  Python compares datetimes field by field. *)
Record datetime := mk_datetime {
  dt_year : Z;
  dt_month : Z;
  dt_day : Z;
  dt_time : Z
}.

Fixpoint lex_compare (l m : list Z) : comparison :=
  match l, m with
  | [], [] => Eq
  | [], _ :: _ => Lt
  | _ :: _, [] => Gt
  | x :: l', y :: m' =>
      match Z.compare x y with
      | Eq => lex_compare l' m'
      | c => c
      end
  end.

Definition dt_fields (d : datetime) : list Z :=
  [dt_year d; dt_month d; dt_day d; dt_time d].

Definition dt_compare (a b : datetime) : comparison :=
  lex_compare (dt_fields a) (dt_fields b).

(** [a > b] and [a <= b] on datetimes. *)
Definition dt_gtb (a b : datetime) : bool :=
  match dt_compare a b with Gt => true | _ => false end.

Definition dt_leb (a b : datetime) : bool := negb (dt_gtb a b).

(** [expiry.strftime("%Y%m%d")] (years 1000..9999 print with four digits). *)
Definition strftime_Ymd (d : datetime) : string :=
  (pad_left "0" 4 (z_digits (dt_year d)) ++ pad_left "0" 2 (z_digits (dt_month d))
   ++ pad_left "0" 2 (z_digits (dt_day d)))%string.

(** Python's [sorted] on datetimes (a stable insertion sort). *)
Fixpoint insert_dt (x : datetime) (l : list datetime) : list datetime :=
  match l with
  | [] => [x]
  | y :: t => if dt_leb x y then x :: y :: t else y :: insert_dt x t
  end.

Fixpoint sort_dt (l : list datetime) : list datetime :=
  match l with
  | [] => []
  | x :: t => insert_dt x (sort_dt t)
  end.

(** The loop of [_get_next_monthly_expiry] over the sorted expiries. *)
Fixpoint first_after (now : datetime) (l : list datetime) : string :=
  match l with
  | [] => EmptyString
  | e :: t => if dt_gtb e now then strftime_Ymd e else first_after now t
  end.

(** [IronCondor._get_next_monthly_expiry]; [None] is a missing option chain. *)
Definition get_next_monthly_expiry (option_chain : option (list datetime))
    (now : datetime) : string :=
  match option_chain with
  | None => EmptyString
  | Some expiries => first_after now (sort_dt expiries)
  end.

(* ------------------------------------------------------------------ *)
(** ** The [IronCondor] strategy (nautilus_trader/examples) *)

Module IronCondor.

(** [InstrumentId]: symbol and venue (as parsed by the framework from
    [config.instrument_id]). *)
Record InstrumentId := mk_instrument_id {
  symbol : string;
  venue : string
}.

(** [IronCondorConfig]; [trade_size] is [Decimal(config.trade_size)]. *)
Record IronCondorConfig := mk_config {
  cfg_instrument_id : InstrumentId;
  cfg_trade_size : Q;
  cfg_call_width : Z;
  cfg_put_width : Z;
  cfg_otm_distance : Z
}.

(** The attributes of the strategy object. *)
Record IronCondor := mk_strategy {
  instrument_id : InstrumentId;
  trade_size : Q;
  call_width : Z;
  put_width : Z;
  otm_distance : Z;
  option_chain : option (list datetime);
  is_position_opened : bool;
  entry_price : Q;
  max_profit : Q
}.

Inductive OrderSide := BUY | SELL.

(** A market order built by [order_factory.market]: the instrument id string
    ([InstrumentId.value]), side and quantity. *)
Record MarketOrder := mk_order {
  order_instrument : string;
  order_side : OrderSide;
  order_quantity : Q
}.

(** Calls the strategy makes to the framework. *)
Inductive action :=
  | SubmitOrder (o : MarketOrder)
  | CloseAllPositions
  | CancelAllOrders
  | SubscribeBars
  | UnsubscribeBars.

(** What the framework answers at a bar: [portfolio.is_flat(instrument_id)],
    the position's unrealized P&L, and [clock.utc_now()]. *)
Record env := mk_env {
  is_flat : bool;
  unrealized_pnl : Q;
  utc_now : datetime
}.

(** [__init__]: the configuration is copied, no check is made. *)
Definition init (config : IronCondorConfig) : IronCondor :=
  {| instrument_id := cfg_instrument_id config;
     trade_size := cfg_trade_size config;
     call_width := cfg_call_width config;
     put_width := cfg_put_width config;
     otm_distance := cfg_otm_distance config;
     option_chain := None;
     is_position_opened := false;
     entry_price := 0;
     max_profit := 0 |}.

Definition set_option_chain (c : option (list datetime)) (s : IronCondor) : IronCondor :=
  {| instrument_id := instrument_id s; trade_size := trade_size s;
     call_width := call_width s; put_width := put_width s;
     otm_distance := otm_distance s; option_chain := c;
     is_position_opened := is_position_opened s;
     entry_price := entry_price s; max_profit := max_profit s |}.

Definition set_is_position_opened (b : bool) (s : IronCondor) : IronCondor :=
  {| instrument_id := instrument_id s; trade_size := trade_size s;
     call_width := call_width s; put_width := put_width s;
     otm_distance := otm_distance s; option_chain := option_chain s;
     is_position_opened := b;
     entry_price := entry_price s; max_profit := max_profit s |}.

(** [get_call_option_id] / [get_put_option_id]:
    [f"{symbol}{expiry}C{strike_str}.SMART"] (resp. [P]). *)
Definition get_call_option_id (s : IronCondor) (now : datetime) (strike : Q) : string :=
  (symbol (instrument_id s) ++ get_next_monthly_expiry (option_chain s) now
   ++ "C" ++ fmt_08_3f strike ++ ".SMART")%string.

Definition get_put_option_id (s : IronCondor) (now : datetime) (strike : Q) : string :=
  (symbol (instrument_id s) ++ get_next_monthly_expiry (option_chain s) now
   ++ "P" ++ fmt_08_3f strike ++ ".SMART")%string.

(** [sell_put_spread] and [sell_call_spread]. *)
Definition sell_put_spread (s : IronCondor) (now : datetime) (short_strike long_strike : Q)
    : list action :=
  [SubmitOrder (mk_order (get_put_option_id s now short_strike) SELL (trade_size s));
   SubmitOrder (mk_order (get_put_option_id s now long_strike) BUY (trade_size s))].

Definition sell_call_spread (s : IronCondor) (now : datetime) (short_strike long_strike : Q)
    : list action :=
  [SubmitOrder (mk_order (get_call_option_id s now short_strike) SELL (trade_size s));
   SubmitOrder (mk_order (get_call_option_id s now long_strike) BUY (trade_size s))].

(** The four strikes of [check_entry_signals]:
    (short_put, long_put, short_call, long_call). *)
Definition entry_strikes (s : IronCondor) (current_price : Q) : Q * Q * Q * Q :=
  let short_put_strike := calculate_strike (current_price - inject_Z (otm_distance s)) in
  let long_put_strike := (short_put_strike - inject_Z (put_width s))%Q in
  let short_call_strike := calculate_strike (current_price + inject_Z (otm_distance s)) in
  let long_call_strike := (short_call_strike + inject_Z (call_width s))%Q in
  (short_put_strike, long_put_strike, short_call_strike, long_call_strike).

(** [check_entry_signals]; [bar_close] is [bar.close]. *)
Definition check_entry_signals (e : env) (bar_close : Q) (s : IronCondor)
    : IronCondor * list action :=
  if is_position_opened s then (s, [])
  else
    let '(sp, lp, sc, lc) := entry_strikes s bar_close in
    (s, sell_put_spread s (utc_now e) sp lp ++ sell_call_spread s (utc_now e) sc lc).

(** The exit decision of [check_exit_signals]. *)
Definition exit_position (pnl max_profit : Q) : bool :=
  if Qle_bool (max_profit * (1 # 2)) pnl then true
  else Qle_bool pnl (- max_profit * 2).

(** [check_exit_signals]. *)
Definition check_exit_signals (e : env) (s : IronCondor) : IronCondor * list action :=
  if negb (is_position_opened s) then (s, [])
  else if negb (is_flat e) then
    if exit_position (unrealized_pnl e) (max_profit s)
    then (set_is_position_opened false s, [CloseAllPositions])
    else (s, [])
  else (s, []).

(** [on_bar]. *)
Definition on_bar (e : env) (bar_close : Q) (s : IronCondor) : IronCondor * list action :=
  match option_chain s with
  | None => (s, [])
  | Some _ =>
      if is_flat e then check_entry_signals e bar_close s
      else check_exit_signals e s
  end.

(** [on_start]: [chain] is what [ib_provider.option_chain] returns. *)
Definition on_start (chain : option (list datetime)) (s : IronCondor)
    : IronCondor * list action :=
  (set_option_chain chain s, [SubscribeBars]).

(** [on_stop]. *)
Definition on_stop (s : IronCondor) : IronCondor * list action :=
  (s, [CancelAllOrders; CloseAllPositions; UnsubscribeBars]).

(** [on_reset]. *)
Definition on_reset (s : IronCondor) : IronCondor * list action :=
  ({| instrument_id := instrument_id s; trade_size := trade_size s;
      call_width := call_width s; put_width := put_width s;
      otm_distance := otm_distance s; option_chain := None;
      is_position_opened := false; entry_price := 0; max_profit := 0 |}, []).

(** Handler invocations delivered to the strategy. *)
Inductive event :=
  | EvStart (chain : option (list datetime))
  | EvBar (e : env) (bar_close : Q)
  | EvEntry (e : env) (bar_close : Q)
  | EvExit (e : env)
  | EvStop
  | EvReset.

Definition handle (ev : event) (s : IronCondor) : IronCondor * list action :=
  match ev with
  | EvStart c => on_start c s
  | EvBar e p => on_bar e p s
  | EvEntry e p => check_entry_signals e p s
  | EvExit e => check_exit_signals e s
  | EvStop => on_stop s
  | EvReset => on_reset s
  end.

(** Runs a sequence of handler invocations, collecting the calls made. *)
Fixpoint run (evs : list event) (s : IronCondor) : IronCondor * list action :=
  match evs with
  | [] => (s, [])
  | ev :: rest =>
      let '(s1, a1) := handle ev s in
      let '(s2, a2) := run rest s1 in
      (s2, a1 ++ a2)
  end.

(** Invocations that neither set the option chain nor call
    [check_entry_signals] directly. *)
Definition idle_event (ev : event) : bool :=
  match ev with
  | EvBar _ _ | EvExit _ | EvStop | EvReset => true
  | EvStart _ | EvEntry _ _ => false
  end.

Definition is_submit (a : action) : bool :=
  match a with SubmitOrder _ => true | _ => false end.

Definition submit_count (acts : list action) : nat :=
  List.length (List.filter is_submit acts).



Section Construct.

(** The library parsers [InstrumentId.from_str] and [Decimal(str)]; [None]
    where they raise. *)
Variable instrument_id_from_str : string -> option InstrumentId.
Variable decimal_from_str : string -> option Q.


End Construct.

(** The signed quantity the orders of [acts] add to the position in
    [instrument]: [+q] for a [BUY], [-q] for a [SELL]. *)
Fixpoint net_quantity (instrument : string) (acts : list action) : Q :=
  match acts with
  | [] => 0%Q
  | SubmitOrder o :: rest =>
      if String.eqb (order_instrument o) instrument then
        match order_side o with
        | BUY => (order_quantity o + net_quantity instrument rest)%Q
        | SELL => (- order_quantity o + net_quantity instrument rest)%Q
        end
      else net_quantity instrument rest
  | _ :: rest => net_quantity instrument rest
  end.

End IronCondor.

(* ------------------------------------------------------------------ *)
(** ** The simplified [IronCondor] strategy (strategies/iron_condor.py) *)

Module SimpleIronCondor.

Import IronCondor.

(** The attributes of the strategy object. *)
Record SimpleIronCondor := mk_simple {
  s_instrument_id : InstrumentId;
  s_trade_size : Q;
  s_call_width : Z;
  s_put_width : Z;
  s_otm_distance : Z;
  position_open : bool
}.

(** [__init__] ([instrument] and [bar_type] are framework objects). *)
Definition init (config : IronCondorConfig) : SimpleIronCondor :=
  {| s_instrument_id := cfg_instrument_id config;
     s_trade_size := cfg_trade_size config;
     s_call_width := cfg_call_width config;
     s_put_width := cfg_put_width config;
     s_otm_distance := cfg_otm_distance config;
     position_open := false |}.

(** [InstrumentId.value]: [f"{symbol}.{venue}"]. *)
Definition instrument_id_value (i : InstrumentId) : string :=
  (symbol i ++ "." ++ venue i)%string.

(** [_entry_conditions_met]: always [True]. *)
Definition entry_conditions_met (bar_close : Q) : bool := true.

(** [_enter_iron_condor]: the strikes are computed but every order is a
    [MarketOrder] on [self.instrument_id]; the comments label them
    sell call spread, buy protective call, sell put spread, buy protective put. *)
Definition enter_iron_condor (bar_close : Q) (s : SimpleIronCondor)
    : SimpleIronCondor * list action :=
  let current_price := bar_close in
  let short_call_strike := (current_price + inject_Z (s_otm_distance s))%Q in
  let long_call_strike := (short_call_strike + inject_Z (s_call_width s))%Q in
  let short_put_strike := (current_price - inject_Z (s_otm_distance s))%Q in
  let long_put_strike := (short_put_strike - inject_Z (s_put_width s))%Q in
  let u := instrument_id_value (s_instrument_id s) in
  ({| s_instrument_id := s_instrument_id s; s_trade_size := s_trade_size s;
      s_call_width := s_call_width s; s_put_width := s_put_width s;
      s_otm_distance := s_otm_distance s; position_open := true |},
   [SubmitOrder (mk_order u SELL (s_trade_size s));
    SubmitOrder (mk_order u BUY (s_trade_size s));
    SubmitOrder (mk_order u SELL (s_trade_size s));
    SubmitOrder (mk_order u BUY (s_trade_size s))]).

(** [on_bar]; [_check_exit_conditions] is [pass]. *)
Definition on_bar (bar_close : Q) (s : SimpleIronCondor) : SimpleIronCondor * list action :=
  if position_open s then (s, [])
  else if entry_conditions_met bar_close then enter_iron_condor bar_close s
  else (s, []).

(** Feeds a sequence of bar closes to [on_bar]. *)
Fixpoint run_simple (bars : list Q) (s : SimpleIronCondor) : SimpleIronCondor * list action :=
  match bars with
  | [] => (s, [])
  | p :: rest =>
      let '(s1, a1) := on_bar p s in
      let '(s2, a2) := run_simple rest s1 in
      (s2, a1 ++ a2)
  end.

End SimpleIronCondor.

(* ------------------------------------------------------------------ *)
(** ** The [TALibStrategy] (nautilus_trader/examples/strategies/talib_strategy.py) *)

Module TALib.

Import IronCondor.

(** A Python [float] as far as comparisons go: a finite value (an exact
    rational) or NaN, with which every ordering comparison is false. *)
Inductive pyfloat := PyNum (q : Q) | PyNaN.

Definition fle (a b : pyfloat) : bool :=
  match a, b with PyNum x, PyNum y => Qle_bool x y | _, _ => false end.

Definition flt (a b : pyfloat) : bool :=
  match a, b with PyNum x, PyNum y => negb (Qle_bool y x) | _, _ => false end.

(** A [Bar]: open, high, low, close and volume. *)
Record Bar := mk_bar {
  bar_open : Q;
  bar_high : Q;
  bar_low : Q;
  bar_close : Q;
  bar_volume : Q
}.

(** [bar.is_single_price()]: [open == high == low == close]. *)
Definition is_single_price (b : Bar) : bool :=
  Qeq_bool (bar_open b) (bar_high b) && Qeq_bool (bar_high b) (bar_low b)
  && Qeq_bool (bar_low b) (bar_close b).

(** What [indicators_initialized()] and [indicator_manager.value(...)]
    answer at the bar ([ema10_1], [ema20_1] are the values at index 1). *)
Record Indicators := mk_indicators {
  initialized : bool;
  beta_5 : pyfloat;
  ema_10 : pyfloat;
  ema_20 : pyfloat;
  ema_10_1 : pyfloat;
  ema_20_1 : pyfloat;
  rsi_14 : pyfloat
}.

(** The attributes of the strategy; [has_instrument] says whether
    [self.instrument] is set (found in the cache by [on_start]). *)
Record TALibStrategy := mk_talib {
  ta_instrument_id : string;
  min_beta : pyfloat;
  max_beta : pyfloat;
  has_instrument : bool
}.

Inductive ta_action :=
  | TASubmitOrder (o : MarketOrder)
  | TAStop
  | TARegisterIndicator
  | TASubscribeBars
  | TASubscribeQuoteTicks
  | TAUnsubscribeBars.

(** [__init__]: [instrument_id] is [config.bar_type.instrument_id] and the
    beta bounds are [config.min_beta] (default [0.5]) and [config.max_beta]
    (default [2.0]); no instrument until [on_start]. *)
Definition init (instrument_id : string) (min_beta max_beta : pyfloat) : TALibStrategy :=
  mk_talib instrument_id min_beta max_beta false.

(** [on_start]: [found] is whether [cache.instrument] returned an instrument. *)
Definition on_start (found : bool) (s : TALibStrategy) : TALibStrategy * list ta_action :=
  let s' := mk_talib (ta_instrument_id s) (min_beta s) (max_beta s) found in
  if found then (s', [TARegisterIndicator; TASubscribeBars; TASubscribeQuoteTicks])
  else (s', [TAStop]).

(** [buy] and [sell]: a market order for [instrument.make_qty(1)];
    [None] is the [AttributeError] raised when [self.instrument] is [None]. *)
Definition buy (s : TALibStrategy) : option (list ta_action) :=
  if has_instrument s then Some [TASubmitOrder (mk_order (ta_instrument_id s) BUY 1)]
  else None.

Definition sell (s : TALibStrategy) : option (list ta_action) :=
  if has_instrument s then Some [TASubmitOrder (mk_order (ta_instrument_id s) SELL 1)]
  else None.

(** [on_bar] (the log calls left out). *)
Definition on_bar (ind : Indicators) (bar : Bar) (s : TALibStrategy) : option (list ta_action) :=
  if negb (initialized ind) then Some []
  else if is_single_price bar then Some []
  else if negb (fle (min_beta s) (beta_5 ind) && fle (beta_5 ind) (max_beta s)) then Some []
  else if Qle_bool 100000 (bar_volume bar) then
    if flt (ema_20 ind) (ema_10 ind) then buy s
    else if flt (ema_10 ind) (ema_20 ind) && fle (ema_20_1 ind) (ema_10_1 ind)
            && flt (PyNum 70) (rsi_14 ind)
    then sell s
    else Some []
  else Some [].

(** [on_stop]. *)
Definition on_stop (s : TALibStrategy) : list ta_action := [TAUnsubscribeBars].

End TALib.

(* ------------------------------------------------------------------ *)
(** ** The [MACDStrategy] (run_iron_condor.py) *)

Module MACD.

Import IronCondor.

Inductive PositionSide := FLAT | LONG | SHORT.

(** The attributes of the strategy; [position] is the id of the position
    object recorded by [on_event]. *)
Record MACDStrategy := mk_macd {
  m_instrument_id : string;
  entry_threshold : Q;
  m_trade_size : Q;
  position : option Z
}.

(** The MACD indicator after [handle_quote_tick] ([initialized] and
    [value]; once initialized the value is finite, an exact rational) and the
    current side of each cached position. *)
Record tick_env := mk_tick_env {
  macd_initialized : bool;
  macd_value : Q;
  side_of : Z -> PositionSide
}.

Inductive m_action :=
  | MSubmitOrder (o : MarketOrder)
  | MClosePosition (position_id : Z)
  | MSubscribeQuoteTicks
  | MUnsubscribeQuoteTicks
  | MCloseAllPositions.

Inductive m_event := PositionOpened (position_id : Z) | OtherEvent.

(** [__init__]: no position yet. *)
Definition init (instrument_id : string) (entry_threshold trade_size : Q) : MACDStrategy :=
  mk_macd instrument_id entry_threshold trade_size None.

(** [self.position and self.position.side == side]. *)
Definition position_is (s : MACDStrategy) (e : tick_env) (side : PositionSide) : bool :=
  match position s with
  | Some p => match side_of e p, side with
              | LONG, LONG | SHORT, SHORT | FLAT, FLAT => true
              | _, _ => false
              end
  | None => false
  end.

(** [check_for_entry]. *)
Definition check_for_entry (s : MACDStrategy) (e : tick_env) : list m_action :=
  if negb (Qle_bool (macd_value e) (entry_threshold s)) then
    if position_is s e LONG then []
    else [MSubmitOrder (mk_order (m_instrument_id s) BUY (m_trade_size s))]
  else if negb (Qle_bool (- entry_threshold s) (macd_value e)) then
    if position_is s e SHORT then []
    else [MSubmitOrder (mk_order (m_instrument_id s) SELL (m_trade_size s))]
  else [].

(** [check_for_exit]. *)
Definition check_for_exit (s : MACDStrategy) (e : tick_env) : list m_action :=
  match position s with
  | None => []
  | Some p =>
      if Qle_bool 0 (macd_value e) then
        if position_is s e SHORT then [MClosePosition p] else []
      else if position_is s e LONG then [MClosePosition p] else []
  end.

(** [on_quote_tick]. *)
Definition on_quote_tick (s : MACDStrategy) (e : tick_env) : list m_action :=
  if negb (macd_initialized e) then []
  else check_for_entry s e ++ check_for_exit s e.

(** [on_event]. *)
Definition on_event (ev : m_event) (s : MACDStrategy) : MACDStrategy :=
  match ev with
  | PositionOpened p => mk_macd (m_instrument_id s) (entry_threshold s) (m_trade_size s) (Some p)
  | OtherEvent => s
  end.

End MACD.

(* ------------------------------------------------------------------ *)
(** ** Fixtures *)

(** [a <= b] on datetimes, as a proposition. *)
Definition dt_le (a b : datetime) : Prop := dt_leb a b = true.

Section Fixtures.

Import IronCondor.

Definition aapl_config : IronCondorConfig :=
  mk_config (mk_instrument_id "AAPL" "SMART") 1 10 10 20.

Definition aapl_jan : IronCondor :=
  set_option_chain (Some [mk_datetime 2024 1 19 0]) (init aapl_config).

Definition aapl_chain : option (list datetime) := Some [mk_datetime 2024 2 16 0].

Definition jan20 : datetime := mk_datetime 2024 1 20 0.

(** The strategy after [on_start] and a first bar at [150] with a flat
    portfolio: four leg orders are in flight, the portfolio does not show the
    position yet. *)
Definition after_first_entry : IronCondor * list action :=
  run [EvStart aapl_chain; EvBar (mk_env true 0 jan20) 150] (init aapl_config).

Definition spx_config : IronCondorConfig :=
  mk_config (mk_instrument_id "SPX" "CBOE") 1 10 10 20.

(** A configuration with [put_width = 0]. *)
Definition zero_width_config : IronCondorConfig :=
  mk_config (mk_instrument_id "SPX" "CBOE") 1 10 0 20.




End Fixtures.

(* ------------------------------------------------------------------ *)
(** ** Rounding lemmas *)

Section Rounding.

Local Open Scope Q_scope.

Lemma qabs_lt_half (y : Q) : -(1#2) < y -> y < 1#2 -> Qabs y < 1#2.
Proof. intros H1 H2. apply Qabs_Qlt_condition. split; assumption. Qed.

(** [round_half_even x] is within [1/2] of [x], strictly unless [x] sits
    half way, in which case the result is even. *)
Lemma round_half_even_cases (x : Q) :
  Qabs (x - inject_Z (round_half_even x)) < 1#2 \/
  (Qabs (x - inject_Z (round_half_even x)) == 1#2 /\ Z.even (round_half_even x) = true).
Proof.
  unfold round_half_even.
  set (f := Qfloor x).
  assert (Hf1 : inject_Z f <= x) by apply Qfloor_le.
  assert (Hf2 : x < inject_Z (f + 1)) by apply Qlt_floor.
  rewrite inject_Z_plus in Hf2. change (inject_Z 1) with 1 in Hf2.
  destruct (Qcompare (x - inject_Z f) (1#2)) eqn:Hc.
  - apply Qeq_alt in Hc.
    right.
    destruct (Z.even f) eqn:He.
    + split; [|exact He].
      rewrite Qabs_pos; lra.
    + split.
      * rewrite inject_Z_plus, Qabs_neg; change (inject_Z 1) with 1; lra.
      * rewrite Z.even_add, He. reflexivity.
  - apply Qlt_alt in Hc. left. apply qabs_lt_half; lra.
  - apply Qgt_alt in Hc. left. rewrite inject_Z_plus.
    change (inject_Z 1) with 1. apply qabs_lt_half; lra.
Qed.

Lemma round_half_even_near (x : Q) :
  Qabs (x - inject_Z (round_half_even x)) <= 1#2.
Proof.
  destruct (round_half_even_cases x) as [H | [H _]].
  - apply Qlt_le_weak. exact H.
  - rewrite H. apply Qle_refl.
Qed.







End Rounding.

(* ------------------------------------------------------------------ *)
(** ** Strike selection *)

Section Strikes.

Import IronCondor.
Local Open Scope Q_scope.





End Strikes.

(* ------------------------------------------------------------------ *)
(** ** Expiry selection *)

Section Expiry.

Lemma lex_compare_antisym (l m : list Z) :
  lex_compare m l = CompOpp (lex_compare l m).
Proof.
  revert m. induction l as [|x l IH]; intros [|y m]; simpl; try reflexivity.
  rewrite (Z.compare_antisym x y).
  destruct (Z.compare x y); simpl; auto.
Qed.

Lemma lex_compare_refl (l : list Z) : lex_compare l l = Eq.
Proof. induction l as [|x l IH]; simpl; [reflexivity|]. rewrite Z.compare_refl. exact IH. Qed.

Lemma lex_compare_le_trans (a b c : list Z) :
  lex_compare a b <> Gt -> lex_compare b c <> Gt -> lex_compare a c <> Gt.
Proof.
  revert b c. induction a as [|x a IH]; intros [|y b] [|z c]; simpl; try congruence.
  destruct (Z.compare_spec x y), (Z.compare_spec y z), (Z.compare_spec x z);
    subst; try lia; try congruence; eauto.
Qed.

Lemma dt_leb_trans (a b c : datetime) :
  dt_leb a b = true -> dt_leb b c = true -> dt_leb a c = true.
Proof.
  unfold dt_leb, dt_gtb, dt_compare. intros H1 H2.
  assert (T := lex_compare_le_trans (dt_fields a) (dt_fields b) (dt_fields c)).
  destruct (lex_compare (dt_fields a) (dt_fields b)),
           (lex_compare (dt_fields b) (dt_fields c)),
           (lex_compare (dt_fields a) (dt_fields c)); simpl in *; try congruence;
    exfalso; apply T; congruence.
Qed.

Lemma dt_leb_total (a b : datetime) : dt_leb a b = false -> dt_leb b a = true.
Proof.
  unfold dt_leb, dt_gtb, dt_compare. rewrite (lex_compare_antisym (dt_fields a)).
  destruct (lex_compare (dt_fields a) (dt_fields b)); simpl; congruence.
Qed.

Lemma in_insert_dt (x z : datetime) (l : list datetime) :
  In z (insert_dt x l) <-> z = x \/ In z l.
Proof.
  induction l as [|y t IH]; simpl.
  - intuition congruence.
  - destruct (dt_leb x y); simpl; [intuition congruence|]. rewrite IH. intuition congruence.
Qed.

Lemma in_sort_dt (z : datetime) (l : list datetime) : In z (sort_dt l) <-> In z l.
Proof.
  induction l as [|x t IH]; simpl; [tauto|].
  rewrite in_insert_dt, IH. intuition congruence.
Qed.

Lemma insert_dt_sorted (x : datetime) (l : list datetime) :
  StronglySorted dt_le l -> StronglySorted dt_le (insert_dt x l).
Proof.
  induction l as [|y t IH]; simpl; intros Hs.
  - repeat constructor.
  - apply StronglySorted_inv in Hs as [Ht Hy].
    destruct (dt_leb x y) eqn:Hxy.
    + constructor; [constructor; assumption|].
      constructor; [exact Hxy|].
      eapply Forall_impl; [|exact Hy]. intros z Hz. eapply dt_leb_trans; eassumption.
    + constructor; [apply IH; exact Ht|].
      apply Forall_forall. intros z Hz. apply in_insert_dt in Hz as [-> | Hz].
      * apply dt_leb_total. exact Hxy.
      * rewrite Forall_forall in Hy. apply Hy. exact Hz.
Qed.

Lemma sort_dt_sorted (l : list datetime) : StronglySorted dt_le (sort_dt l).
Proof.
  induction l as [|x t IH]; simpl; [constructor|].
  apply insert_dt_sorted. exact IH.
Qed.

(** On a sorted list, the loop stops at the least element after [now]. *)
Lemma first_after_least (now : datetime) (l : list datetime) :
  StronglySorted dt_le l ->
  (exists e, In e l /\ dt_gtb e now = true) ->
  exists e, In e l /\ dt_gtb e now = true /\
    (forall e', In e' l -> dt_gtb e' now = true -> dt_le e e') /\
    first_after now l = strftime_Ymd e.
Proof.
  induction l as [|x t IH]; simpl; intros Hs [e0 [Hin Hgt]]; [contradiction|].
  apply StronglySorted_inv in Hs as [Ht Hx].
  destruct (dt_gtb x now) eqn:Hxn.
  - exists x. split; [left; reflexivity|]. split; [exact Hxn|]. split; [|reflexivity].
    intros e' [<- | He'] _.
    + unfold dt_le, dt_leb, dt_gtb, dt_compare. rewrite lex_compare_refl. reflexivity.
    + rewrite Forall_forall in Hx. apply Hx. exact He'.
  - destruct Hin as [<- | Hin]; [congruence|].
    destruct (IH Ht (ex_intro _ e0 (conj Hin Hgt))) as [e [He [Hg [Hmin Hf]]]].
    exists e. split; [right; exact He|]. split; [exact Hg|]. split; [|exact Hf].
    intros e' [<- | He'] Hg'; [congruence|]. apply Hmin; assumption.
Qed.

Lemma first_after_none (now : datetime) (l : list datetime) :
  (forall e, In e l -> dt_gtb e now = false) -> first_after now l = EmptyString.
Proof.
  induction l as [|x t IH]; simpl; intros H; [reflexivity|].
  rewrite (H x (or_introl eq_refl)). apply IH. intros e He. apply H. right. exact He.
Qed.

(** C5: when some expiry of the chain is after [as_of], the selector
    returns (formatted [YYYYMMDD]) an expiry of the chain after [as_of] that
    is not later than any other such expiry, whatever the order of the
    chain; on the chain [2024-03-15, 2024-01-19, 2024-02-16] (and on its
    sorted form) with [as_of = 2024-01-20] it returns [20240216]. *)
Theorem next_expiry_earliest (expiries : list datetime) (as_of : datetime)
    (Hex : exists e, In e expiries /\ dt_gtb e as_of = true) :
  (exists e, In e expiries /\ dt_gtb e as_of = true /\
     (forall e', In e' expiries -> dt_gtb e' as_of = true -> dt_le e e') /\
     get_next_monthly_expiry (Some expiries) as_of = strftime_Ymd e) /\
  get_next_monthly_expiry
    (Some [mk_datetime 2024 1 19 0; mk_datetime 2024 2 16 0; mk_datetime 2024 3 15 0])
    (mk_datetime 2024 1 20 0) = "20240216"%string /\
  get_next_monthly_expiry
    (Some [mk_datetime 2024 3 15 0; mk_datetime 2024 1 19 0; mk_datetime 2024 2 16 0])
    (mk_datetime 2024 1 20 0) = "20240216"%string.
Proof.
  split; [|split; vm_compute; reflexivity].
  destruct Hex as [e0 [Hin Hgt]].
  destruct (first_after_least as_of (sort_dt expiries) (sort_dt_sorted expiries))
    as [e [He [Hg [Hmin Hf]]]].
  { exists e0. split; [apply in_sort_dt; exact Hin | exact Hgt]. }
  exists e. split; [apply in_sort_dt; exact He|]. split; [exact Hg|]. split.
  - intros e' He' Hg'. apply Hmin; [apply in_sort_dt; exact He' | exact Hg'].
  - exact Hf.
Qed.

Lemma next_expiry_earliest_witness :
  (exists e, In e [mk_datetime 2024 1 19 0; mk_datetime 2024 2 16 0; mk_datetime 2024 3 15 0]
     /\ dt_gtb e (mk_datetime 2024 1 20 0) = true) /\
  get_next_monthly_expiry
    (Some [mk_datetime 2024 1 19 0; mk_datetime 2024 2 16 0; mk_datetime 2024 3 15 0])
    (mk_datetime 2024 1 20 0) = "20240216"%string.
Proof.
  assert (Hex : exists e, In e [mk_datetime 2024 1 19 0; mk_datetime 2024 2 16 0;
                                mk_datetime 2024 3 15 0]
                  /\ dt_gtb e (mk_datetime 2024 1 20 0) = true).
  { exists (mk_datetime 2024 2 16 0). split; [simpl; tauto | vm_compute; reflexivity]. }
  split; [exact Hex|].
  exact (proj1 (proj2 (next_expiry_earliest _ _ Hex))).
Defined.

End Expiry.

(* ------------------------------------------------------------------ *)
(** ** Option identifiers *)

Section OptionIds.

Import IronCondor.

(** C4 (counterexample): for the symbol [AAPL], the expiry 2024-01-19, a
    call and the strike [150.0], the identifier is not
    ["AAPL20240119C00150.000.SMART"]: the [08.3f] format pads to eight
    characters in total. *)
Lemma option_id_fixture_mismatch :
  get_call_option_id aapl_jan (mk_datetime 2024 1 2 0) 150
  <> "AAPL20240119C00150.000.SMART"%string.
Proof. apply String.eqb_neq. vm_compute. reflexivity. Qed.

(** C4 (amended): the identifiers are
    [{symbol}{next expiry as YYYYMMDD}{C|P}{f"{strike:08.3f}"}.SMART]
    (the venue is always [SMART]); for [AAPL], 2024-01-19, a call at
    [150.0] the identifier is ["AAPL20240119C0150.000.SMART"]. *)
Theorem option_id_format (s : IronCondor) (now : datetime) (strike : Q) :
  get_call_option_id s now strike =
    (symbol (instrument_id s) ++ get_next_monthly_expiry (option_chain s) now
     ++ "C" ++ fmt_08_3f strike ++ ".SMART")%string /\
  get_put_option_id s now strike =
    (symbol (instrument_id s) ++ get_next_monthly_expiry (option_chain s) now
     ++ "P" ++ fmt_08_3f strike ++ ".SMART")%string /\
  get_call_option_id aapl_jan (mk_datetime 2024 1 2 0) 150
    = "AAPL20240119C0150.000.SMART"%string.
Proof.
  split; [reflexivity|]. split; [reflexivity|]. vm_compute. reflexivity.
Qed.

(** C10: with no option chain, or with every expiry at or before [now],
    the expiry segment is the empty string and the identifiers are
    [{symbol}{C|P}{strike}.SMART]; at a bar with a chain present (all its
    expiries past), a flat portfolio and no recorded position, [on_bar]
    still submits the four orders on these identifiers.  For [AAPL] and the
    strike [150.0] the call identifier is ["AAPLC0150.000.SMART"]. *)
Theorem empty_expiry_segment (s : IronCondor) (e : env) (bar_close strike : Q)
    (Hexp : match option_chain s with
            | None => True
            | Some es => forall d, In d es -> dt_gtb d (utc_now e) = false
            end) :
  get_next_monthly_expiry (option_chain s) (utc_now e) = EmptyString /\
  get_call_option_id s (utc_now e) strike =
    (symbol (instrument_id s) ++ "C" ++ fmt_08_3f strike ++ ".SMART")%string /\
  get_put_option_id s (utc_now e) strike =
    (symbol (instrument_id s) ++ "P" ++ fmt_08_3f strike ++ ".SMART")%string /\
  (option_chain s <> None -> is_position_opened s = false -> is_flat e = true ->
   let '(sp, lp, sc, lc) := entry_strikes s bar_close in
   let u := symbol (instrument_id s) in
   on_bar e bar_close s =
     (s, [SubmitOrder (mk_order (u ++ "P" ++ fmt_08_3f sp ++ ".SMART") SELL (trade_size s));
          SubmitOrder (mk_order (u ++ "P" ++ fmt_08_3f lp ++ ".SMART") BUY (trade_size s));
          SubmitOrder (mk_order (u ++ "C" ++ fmt_08_3f sc ++ ".SMART") SELL (trade_size s));
          SubmitOrder (mk_order (u ++ "C" ++ fmt_08_3f lc ++ ".SMART") BUY (trade_size s))])%string) /\
  get_call_option_id (set_option_chain None aapl_jan) (utc_now e) 150
    = "AAPLC0150.000.SMART"%string.
Proof.
  assert (Hnone : get_next_monthly_expiry (option_chain s) (utc_now e) = EmptyString).
  { unfold get_next_monthly_expiry. destruct (option_chain s) as [es|]; [|reflexivity].
    apply first_after_none. intros d Hd. apply Hexp. apply in_sort_dt. exact Hd. }
  split; [exact Hnone|].
  unfold get_call_option_id, get_put_option_id. rewrite Hnone.
  split; [reflexivity|]. split; [reflexivity|]. split.
  - intros Hc Hop Hfl.
    unfold on_bar, check_entry_signals, sell_put_spread, sell_call_spread,
      get_put_option_id, get_call_option_id.
    rewrite Hnone, Hfl, Hop.
    destruct (entry_strikes s bar_close) as [[[sp lp] sc] lc].
    destruct (option_chain s) as [es|]; [reflexivity | congruence].
  - vm_compute. reflexivity.
Qed.

Lemma empty_expiry_segment_witness :
  (forall d, In d [mk_datetime 2024 1 19 0] -> dt_gtb d (mk_datetime 2024 2 1 0) = false) /\
  get_call_option_id aapl_jan (mk_datetime 2024 2 1 0) 150 = "AAPLC0150.000.SMART"%string.
Proof.
  assert (H : forall d, In d [mk_datetime 2024 1 19 0] ->
                        dt_gtb d (mk_datetime 2024 2 1 0) = false).
  { intros d [<- | []]. vm_compute. reflexivity. }
  split; [exact H|].
  destruct (empty_expiry_segment aapl_jan (mk_env true 0 (mk_datetime 2024 2 1 0)) 4500 150 H)
    as [_ [Hc _]].
  exact Hc.
Defined.

End OptionIds.

(* ------------------------------------------------------------------ *)
(** ** The strategy's handlers *)

Section Lifecycle.

Import IronCondor.

Lemma run_cons_fst (ev : event) (evs : list event) (s : IronCondor) :
  fst (run (ev :: evs) s) = fst (run evs (fst (handle ev s))).
Proof.
  simpl. destruct (handle ev s) as [s1 a1]. simpl. destruct (run evs s1). reflexivity.
Qed.

(** At a state with no recorded position, [check_exit_signals] returns at
    once. *)
Lemma check_exit_signals_not_opened (e : env) (s : IronCondor) :
  is_position_opened s = false -> check_exit_signals e s = (s, []).
Proof. intros H. unfold check_exit_signals. rewrite H. reflexivity. Qed.

Lemma check_entry_signals_state (e : env) (p : Q) (s : IronCondor) :
  fst (check_entry_signals e p s) = s.
Proof.
  unfold check_entry_signals. destruct (is_position_opened s); [reflexivity|].
  destruct (entry_strikes s p) as [[[sp lp] sc] lc]. reflexivity.
Qed.

Lemma handle_keeps_flags (ev : event) (s : IronCondor) :
  is_position_opened s = false -> max_profit s = 0%Q ->
  is_position_opened (fst (handle ev s)) = false /\ max_profit (fst (handle ev s)) = 0%Q.
Proof.
  intros Ho Hm. destruct ev as [c | e p | e p | e | |]; simpl.
  - split; assumption.
  - unfold on_bar. destruct (option_chain s); [|split; assumption].
    destruct (is_flat e).
    + rewrite check_entry_signals_state. split; assumption.
    + rewrite check_exit_signals_not_opened by exact Ho. split; assumption.
  - rewrite check_entry_signals_state. split; assumption.
  - rewrite check_exit_signals_not_opened by exact Ho. split; assumption.
  - split; assumption.
  - split; reflexivity.
Qed.

Lemma run_keeps_flags (evs : list event) (s : IronCondor) :
  is_position_opened s = false -> max_profit s = 0%Q ->
  is_position_opened (fst (run evs s)) = false /\ max_profit (fst (run evs s)) = 0%Q.
Proof.
  revert s. induction evs as [|ev rest IH]; intros s Ho Hm; [split; assumption|].
  rewrite run_cons_fst.
  destruct (handle_keeps_flags ev s Ho Hm) as [Ho1 Hm1].
  apply IH; assumption.
Qed.

Lemma check_entry_signals_no_close (e : env) (p : Q) (s : IronCondor) :
  ~ In CloseAllPositions (snd (check_entry_signals e p s)).
Proof.
  unfold check_entry_signals. destruct (is_position_opened s); simpl; [tauto|].
  destruct (entry_strikes s p) as [[[sp lp] sc] lc]. simpl.
  intros [H | [H | [H | [H | []]]]]; discriminate.
Qed.

(** C9: in every state reached from construction by any sequence of
    handler invocations ([on_start], [on_bar], [check_entry_signals],
    [check_exit_signals], [on_stop], [on_reset]), [is_position_opened] is
    [False] and [max_profit] is [0]; so [check_exit_signals] returns at once
    and a bar update never closes positions. *)
Theorem flags_never_set (config : IronCondorConfig) (evs : list event) :
  let s := fst (run evs (init config)) in
  is_position_opened s = false /\ max_profit s = 0%Q /\
  (forall e, check_exit_signals e s = (s, [])) /\
  (forall e p, ~ In CloseAllPositions (snd (on_bar e p s))).
Proof.
  intros s.
  destruct (run_keeps_flags evs (init config) eq_refl eq_refl) as [Ho Hm].
  fold s in Ho, Hm.
  split; [exact Ho|]. split; [exact Hm|]. split.
  - intros e. apply check_exit_signals_not_opened. exact Ho.
  - intros e p. unfold on_bar. destruct (option_chain s); [|simpl; tauto].
    destruct (is_flat e).
    + apply check_entry_signals_no_close.
    + rewrite check_exit_signals_not_opened by exact Ho. simpl. tauto.
Qed.

(** C1 (code bug): the first bar submits the four legs; a second bar while
    the portfolio is still flat submits four more. *)
Theorem second_bar_reopens :
  submit_count (snd after_first_entry) = 4%nat /\
  submit_count (snd (on_bar (mk_env true 0 jan20) (301 # 2) (fst after_first_entry))) = 4%nat /\
  is_position_opened (fst after_first_entry) = false.
Proof. vm_compute. repeat split. Qed.

(** The exit decision: profit target or stop loss. *)
Lemma exit_position_spec (pnl mp : Q) :
  exit_position pnl mp = true <-> (mp * (1 # 2) <= pnl \/ pnl <= - mp * 2)%Q.
Proof.
  unfold exit_position.
  destruct (Qle_bool (mp * (1 # 2)) pnl) eqn:H1.
  - apply Qle_bool_iff in H1. split; [intros _; left; exact H1 | reflexivity].
  - split.
    + intros H2. right. apply Qle_bool_iff. exact H2.
    + intros [H | H].
      * apply Qle_bool_iff in H. congruence.
      * apply Qle_bool_iff. exact H.
Qed.

(** Once a position is recorded, [check_exit_signals] closes exactly on the
    exit condition; no reachable state records one (see [flags_never_set]). *)
Lemma check_exit_signals_opened (e : env) (s : IronCondor) :
  is_position_opened s = true -> is_flat e = false ->
  (In CloseAllPositions (snd (check_exit_signals e s)) <->
   (max_profit s * (1 # 2) <= unrealized_pnl e \/ unrealized_pnl e <= - max_profit s * 2)%Q).
Proof.
  intros Ho Hf. rewrite <- exit_position_spec.
  unfold check_exit_signals. rewrite Ho, Hf. simpl.
  destruct (exit_position (unrealized_pnl e) (max_profit s)); simpl; intuition congruence.
Qed.

(** C3 (code bug): after the entry above has filled (the portfolio is no
    longer flat) a bar with an unrealized P&L of [1000], which meets the
    profit target [1000 >= max_profit * 0.5], closes nothing. *)
Theorem exit_never_taken :
  exit_position 1000 (max_profit (fst after_first_entry)) = true /\
  on_bar (mk_env false 1000 jan20) 150 (fst after_first_entry)
    = (fst after_first_entry, []).
Proof. vm_compute. split; reflexivity. Qed.

End Lifecycle.

(* ------------------------------------------------------------------ *)
(** ** Leg orders and configuration *)

Section Legs.

Import IronCondor.

(** C6 (code bug): the open of the simplified strategy
    ([strategies/iron_condor.py]) computes the four strikes and uses none of
    them: its four orders (SELL, BUY, SELL, BUY, each for [trade_size]) are
    all on the underlying instrument, whatever the bar's price, so they
    cancel out ([net_quantity] 0) instead of opening the short put, long
    put, short call and long call legs. *)
Theorem simple_open_legs_on_underlying (config : IronCondorConfig) (p p' : Q) :
  let s := SimpleIronCondor.init config in
  let u := SimpleIronCondor.instrument_id_value (cfg_instrument_id config) in
  let q := cfg_trade_size config in
  snd (SimpleIronCondor.on_bar p s) =
    [SubmitOrder (mk_order u SELL q); SubmitOrder (mk_order u BUY q);
     SubmitOrder (mk_order u SELL q); SubmitOrder (mk_order u BUY q)] /\
  snd (SimpleIronCondor.on_bar p' s) = snd (SimpleIronCondor.on_bar p s) /\
  (forall o, In (SubmitOrder o) (snd (SimpleIronCondor.on_bar p s)) -> order_instrument o = u) /\
  (net_quantity u (snd (SimpleIronCondor.on_bar p s)) == 0)%Q.
Proof.
  intros s u q. cbn. rewrite String.eqb_refl.
  split; [reflexivity|]. split; [reflexivity|]. split.
  - intros o Ho. repeat (destruct Ho as [Ho | Ho]; [injection Ho as <-; reflexivity|]).
    destruct Ho.
  - ring.
Qed.

(** The example strategy's open submits exactly four orders,
    short put (SELL), long put (BUY), short call (SELL), long call (BUY) on
    the option identifiers of the strikes computed at entry, each for
    [trade_size]; the simplified strategy's open submits SELL, BUY, SELL,
    BUY, each for [trade_size], all on the underlying instrument. *)
Theorem open_leg_order (s : IronCondor) (e : env) (bar_close : Q)
    (ss : SimpleIronCondor.SimpleIronCondor)
    (Hopen : is_position_opened s = false)
    (Hsopen : SimpleIronCondor.position_open ss = false) :
  (let '(sp, lp, sc, lc) := entry_strikes s bar_close in
   check_entry_signals e bar_close s =
     (s, [SubmitOrder (mk_order (get_put_option_id s (utc_now e) sp) SELL (trade_size s));
          SubmitOrder (mk_order (get_put_option_id s (utc_now e) lp) BUY (trade_size s));
          SubmitOrder (mk_order (get_call_option_id s (utc_now e) sc) SELL (trade_size s));
          SubmitOrder (mk_order (get_call_option_id s (utc_now e) lc) BUY (trade_size s))])) /\
  (let u := SimpleIronCondor.instrument_id_value (SimpleIronCondor.s_instrument_id ss) in
   let q := SimpleIronCondor.s_trade_size ss in
   snd (SimpleIronCondor.on_bar bar_close ss) =
     [SubmitOrder (mk_order u SELL q); SubmitOrder (mk_order u BUY q);
      SubmitOrder (mk_order u SELL q); SubmitOrder (mk_order u BUY q)]).
Proof.
  split.
  - unfold check_entry_signals. rewrite Hopen.
    destruct (entry_strikes s bar_close) as [[[sp lp] sc] lc]. reflexivity.
  - unfold SimpleIronCondor.on_bar. rewrite Hsopen. reflexivity.
Qed.

Lemma open_leg_order_witness :
  is_position_opened (init spx_config) = false /\
  SimpleIronCondor.position_open (SimpleIronCondor.init spx_config) = false /\
  snd (check_entry_signals (mk_env true 0 jan20) 4500 (init spx_config)) =
    [SubmitOrder (mk_order "SPXP4480.000.SMART" SELL 1);
     SubmitOrder (mk_order "SPXP4470.000.SMART" BUY 1);
     SubmitOrder (mk_order "SPXC4520.000.SMART" SELL 1);
     SubmitOrder (mk_order "SPXC4530.000.SMART" BUY 1)].
Proof.
  split; [reflexivity|]. split; [reflexivity|].
  destruct (open_leg_order (init spx_config) (mk_env true 0 jan20) 4500
              (SimpleIronCondor.init spx_config) eq_refl eq_refl) as [H _].
  unfold entry_strikes in H. cbv beta iota zeta in H.
  rewrite H. vm_compute. reflexivity.
Defined.



End Legs.

(* ------------------------------------------------------------------ *)
(** ** Further properties of the iron condor strategies *)

Section MoreStrikes.

Local Open Scope Q_scope.

Lemma round_half_even_wd (x y : Q) : x == y -> round_half_even x = round_half_even y.
Proof.
  intros H. unfold round_half_even.
  rewrite (Qfloor_comp x y H).
  assert (Hr : x - inject_Z (Qfloor y) == y - inject_Z (Qfloor y)) by (rewrite H; reflexivity).
  rewrite (Qcompare_comp _ _ Hr _ _ (Qeq_refl (1 # 2))). reflexivity.
Qed.

Lemma round_half_even_int (n : Z) : round_half_even (inject_Z n) = n.
Proof.
  unfold round_half_even.
  assert (Hf : Qfloor (inject_Z n) = n).
  { apply Z.le_antisymm.
    - rewrite Zle_Qle. apply Qfloor_le.
    - apply Zlt_succ_le. unfold Z.succ. rewrite Zlt_Qlt. apply Qlt_floor. }
  rewrite Hf.
  assert (Hr : inject_Z n - inject_Z n == 0) by ring.
  rewrite (Qcompare_comp _ _ Hr _ _ (Qeq_refl (1 # 2))). reflexivity.
Qed.

Lemma round_half_even_monotone (x y : Q) :
  x <= y -> (round_half_even x <= round_half_even y)%Z.
Proof.
  intros Hxy.
  destruct (Z.le_gt_cases (round_half_even x) (round_half_even y)) as [H | H]; [exact H|].
  exfalso.
  assert (Hx := round_half_even_near x). assert (Hy := round_half_even_near y).
  apply Qabs_Qle_condition in Hx. apply Qabs_Qle_condition in Hy.
  assert (Hnm : (round_half_even y + 1 <= round_half_even x)%Z) by lia.
  rewrite Zle_Qle, inject_Z_plus in Hnm. change (inject_Z 1) with 1 in Hnm.
  assert (Heq : x == y) by lra.
  rewrite (round_half_even_wd _ _ Heq) in H. lia.
Qed.




End MoreStrikes.

Section Formatting.

Lemma length_repeat_char (n : nat) (c : ascii) : String.length (repeat_char n c) = n.
Proof. induction n as [|n IH]; simpl; [reflexivity|]. rewrite IH. reflexivity. Qed.

Lemma length_append (a b : string) :
  String.length (a ++ b) = (String.length a + String.length b)%nat.
Proof. induction a as [|c a IH]; simpl; [reflexivity|]. rewrite IH. reflexivity. Qed.

Lemma length_pad_left (c : ascii) (w : nat) (s : string) :
  String.length (pad_left c w s) = Nat.max w (String.length s).
Proof. unfold pad_left. rewrite length_append, length_repeat_char. lia. Qed.

Lemma length_digits_aux (fuel : nat) (n : Z) (acc : string) (D : nat) :
  (0 <= n)%Z -> (1 <= D)%nat -> (n < 10 ^ Z.of_nat D)%Z ->
  (String.length (digits_aux fuel n acc) <= String.length acc + D)%nat.
Proof.
  revert n acc D. induction fuel as [|f IH]; intros n acc D Hn HD Hlt; [simpl; lia|].
  change (digits_aux (S f) n acc) with
    (if n <? 10 then String (digit_char (n mod 10)) acc
     else digits_aux f (n / 10) (String (digit_char (n mod 10)) acc)).
  destruct (n <? 10) eqn:H10; [simpl String.length; lia|].
  apply Z.ltb_ge in H10.
  destruct D as [|D']; [lia|].
  destruct D' as [|D'']; [simpl in Hlt; lia|].
  assert (Hq : (n / 10 < 10 ^ Z.of_nat (S D''))%Z).
  { apply Z.div_lt_upper_bound; [lia|].
    replace (10 * 10 ^ Z.of_nat (S D''))%Z with (10 ^ Z.of_nat (S (S D'')))%Z; [exact Hlt|].
    rewrite !Nat2Z.inj_succ, (Z.pow_succ_r 10 (Z.succ (Z.of_nat D''))); lia. }
  specialize (IH (n / 10) (String (digit_char (n mod 10)) acc) (S D'')).
  simpl String.length in IH. assert (IH' := IH (Z.div_pos n 10 Hn ltac:(lia)) ltac:(lia) Hq). lia.
Qed.

Lemma length_z_digits (n : Z) (D : nat) :
  (0 <= n)%Z -> (1 <= D)%nat -> (n < 10 ^ Z.of_nat D)%Z -> (String.length (z_digits n) <= D)%nat.
Proof.
  intros. unfold z_digits.
  assert (H2 := length_digits_aux (S (Z.to_nat (Z.log2 n))) n EmptyString D H H0 H1).
  simpl in H2. exact H2.
Qed.

(** Every strike from [0] to [9999.999] prints as exactly eight characters
    ([f"{strike:08.3f}"]), so the identifiers built from it have a fixed
    layout. *)
Theorem fmt_08_3f_width (x : Q) (Hlo : (0 <= x)%Q) (Hhi : (x <= 9999999 # 1000)%Q) :
  String.length (fmt_08_3f x) = 8%nat.
Proof.
  unfold fmt_08_3f.
  assert (Hpos : Qle_bool 0 x = true) by (apply Qle_bool_iff; exact Hlo).
  rewrite Hpos. simpl negb. cbv iota.
  set (m := Z.abs (round_half_even (x * 1000))).
  assert (Hm0 : (0 <= round_half_even (x * 1000))%Z).
  { rewrite <- (round_half_even_int 0). apply round_half_even_monotone.
    change (inject_Z 0) with 0%Q. lra. }
  assert (Hm1 : (round_half_even (x * 1000) <= 9999999)%Z).
  { rewrite <- (round_half_even_int 9999999). apply round_half_even_monotone.
    unfold inject_Z. lra. }
  assert (Hmr : (0 <= m <= 9999999)%Z) by (unfold m; lia).
  rewrite length_pad_left, length_append. simpl String.length.
  rewrite length_pad_left.
  assert (Hd1 : (String.length (z_digits (m / 1000)) <= 4)%nat).
  { apply length_z_digits; [apply Z.div_pos; lia | lia |].
    apply Z.div_lt_upper_bound; simpl; lia. }
  assert (Hd2 : (String.length (z_digits (m mod 1000)) <= 3)%nat).
  { apply length_z_digits; [apply Z.mod_pos_bound; lia | lia |].
    simpl. apply Z.mod_pos_bound. lia. }
  lia.
Qed.

Lemma fmt_08_3f_width_witness :
  (0 <= 150)%Q /\ (150 <= 9999999 # 1000)%Q /\ String.length (fmt_08_3f 150) = 8%nat.
Proof.
  split; [lra|]. split; [lra|]. apply fmt_08_3f_width; lra.
Defined.

Lemma string_append_cancel_l (a b c : string) : (a ++ b)%string = (a ++ c)%string -> b = c.
Proof.
  induction a as [|x a IH]; simpl; intros H; [exact H|].
  injection H as H. apply IH. exact H.
Qed.

End Formatting.

Section MoreLifecycle.

Import IronCondor.

(** For one strike, the call and the put identifiers differ: the legs of
    the put spread and of the call spread never target the same
    instrument. *)
Theorem call_put_ids_distinct (s : IronCondor) (now : datetime) (strike1 strike2 : Q) :
  get_call_option_id s now strike1 <> get_put_option_id s now strike2.
Proof.
  unfold get_call_option_id, get_put_option_id. intros H.
  apply string_append_cancel_l in H. apply string_append_cancel_l in H.
  discriminate H.
Qed.

Lemma lex_compare_eq (l m : list Z) : lex_compare l m = Eq -> l = m.
Proof.
  revert m. induction l as [|x l IH]; intros [|y m]; simpl; try congruence.
  destruct (Z.compare_spec x y); try congruence.
  intros H'. subst. f_equal. apply IH. exact H'.
Qed.

Lemma dt_le_antisym (a b : datetime) : dt_le a b -> dt_le b a -> a = b.
Proof.
  unfold dt_le, dt_leb, dt_gtb, dt_compare. intros H1 H2.
  rewrite (lex_compare_antisym (dt_fields a)) in H2.
  destruct (lex_compare (dt_fields a) (dt_fields b)) eqn:E; simpl in H1, H2; try discriminate.
  apply lex_compare_eq in E. destruct a, b. unfold dt_fields in E. simpl in E.
  injection E as -> -> -> ->. reflexivity.
Qed.

(** The expiry chosen depends only on which expiries the chain holds: not on
    their order, nor on repetitions. *)
Theorem next_expiry_set_invariant (l l' : list datetime) (now : datetime)
    (Hsame : forall d, In d l <-> In d l') :
  get_next_monthly_expiry (Some l) now = get_next_monthly_expiry (Some l') now.
Proof.
  unfold get_next_monthly_expiry.
  destruct (List.existsb (fun d => dt_gtb d now) l) eqn:Hex.
  - apply existsb_exists in Hex as [e0 [Hin Hgt]].
    destruct (first_after_least now (sort_dt l) (sort_dt_sorted l)) as [e1 [He1 [Hg1 [Hm1 Hf1]]]].
    { exists e0. split; [apply in_sort_dt; exact Hin | exact Hgt]. }
    destruct (first_after_least now (sort_dt l') (sort_dt_sorted l')) as [e2 [He2 [Hg2 [Hm2 Hf2]]]].
    { exists e0. split; [apply in_sort_dt, Hsame; exact Hin | exact Hgt]. }
    rewrite Hf1, Hf2. f_equal. apply dt_le_antisym.
    + apply Hm1; [apply in_sort_dt, Hsame, in_sort_dt; exact He2 | exact Hg2].
    + apply Hm2; [apply in_sort_dt, Hsame, in_sort_dt; exact He1 | exact Hg1].
  - assert (Hn : forall d, In d l -> dt_gtb d now = false).
    { intros d Hd. destruct (dt_gtb d now) eqn:E; [|reflexivity].
      rewrite <- Hex. symmetry. apply existsb_exists. exists d. split; assumption. }
    rewrite !first_after_none; [reflexivity | |].
    + intros d Hd. apply Hn, Hsame, in_sort_dt. exact Hd.
    + intros d Hd. apply Hn, in_sort_dt. exact Hd.
Qed.

Lemma next_expiry_set_invariant_witness :
  (forall d, In d [mk_datetime 2024 3 15 0; mk_datetime 2024 2 16 0; mk_datetime 2024 2 16 0]
             <-> In d [mk_datetime 2024 2 16 0; mk_datetime 2024 3 15 0]) /\
  get_next_monthly_expiry
    (Some [mk_datetime 2024 3 15 0; mk_datetime 2024 2 16 0; mk_datetime 2024 2 16 0]) jan20
  = get_next_monthly_expiry (Some [mk_datetime 2024 2 16 0; mk_datetime 2024 3 15 0]) jan20.
Proof.
  assert (H : forall d, In d [mk_datetime 2024 3 15 0; mk_datetime 2024 2 16 0;
                              mk_datetime 2024 2 16 0]
                        <-> In d [mk_datetime 2024 2 16 0; mk_datetime 2024 3 15 0]).
  { intros d. simpl. intuition congruence. }
  split; [exact H|]. apply next_expiry_set_invariant. exact H.
Defined.

Lemma submit_count_app (a b : list action) :
  submit_count (a ++ b) = (submit_count a + submit_count b)%nat.
Proof. unfold submit_count. rewrite filter_app, length_app. reflexivity. Qed.

(** A bar while the portfolio holds a position never submits an order: the
    only call it can make is [close_all_positions]. *)
Theorem bar_with_position_submits_nothing (e : env) (p : Q) (s : IronCondor)
    (Hpos : is_flat e = false) :
  submit_count (snd (on_bar e p s)) = 0%nat /\
  incl (snd (on_bar e p s)) [CloseAllPositions].
Proof.
  unfold on_bar. destruct (option_chain s); [|split; [reflexivity | intros a []]].
  rewrite Hpos. unfold check_exit_signals.
  destruct (is_position_opened s); simpl; [|split; [reflexivity | intros a []]].
  rewrite Hpos. simpl.
  destruct (exit_position (unrealized_pnl e) (max_profit s)); simpl;
    (split; [reflexivity | intros a Ha; exact Ha]) || (split; [reflexivity | intros a []]).
Qed.

Lemma bar_with_position_submits_nothing_witness :
  is_flat (mk_env false 1000 jan20) = false /\
  submit_count (snd (on_bar (mk_env false 1000 jan20) 150 (fst after_first_entry))) = 0%nat.
Proof.
  split; [reflexivity|].
  exact (proj1 (bar_with_position_submits_nothing (mk_env false 1000 jan20) 150 (fst after_first_entry) eq_refl)).
Defined.

(** Without an option chain (before [on_start], or after [on_reset]), bars,
    exit checks, stops and resets never submit an order. *)
Theorem no_chain_no_orders (evs : list event) (s : IronCondor)
    (Hnone : option_chain s = None) (Hidle : forallb idle_event evs = true) :
  submit_count (snd (run evs s)) = 0%nat.
Proof.
  revert s Hnone. induction evs as [|ev rest IH]; intros s Hnone; [reflexivity|].
  simpl in Hidle. apply andb_prop in Hidle as [Hev Hrest].
  simpl. destruct ev as [c | e p | e p | e | |]; try discriminate; simpl.
  - unfold on_bar. rewrite Hnone.
    destruct (run rest s) as [s2 a2] eqn:Er. simpl.
    rewrite <- (IH Hrest s Hnone), Er. reflexivity.
  - unfold check_exit_signals.
    destruct (is_position_opened s) eqn:Ho; simpl.
    + destruct (is_flat e); simpl.
      * destruct (run rest s) as [s2 a2] eqn:Er. simpl.
        rewrite <- (IH Hrest s Hnone), Er. reflexivity.
      * destruct (exit_position (unrealized_pnl e) (max_profit s)).
        -- destruct (run rest (set_is_position_opened false s)) as [s2 a2] eqn:Er. simpl.
           rewrite <- (IH Hrest (set_is_position_opened false s) Hnone), Er. reflexivity.
        -- destruct (run rest s) as [s2 a2] eqn:Er. simpl.
           rewrite <- (IH Hrest s Hnone), Er. reflexivity.
    + destruct (run rest s) as [s2 a2] eqn:Er. simpl.
      rewrite <- (IH Hrest s Hnone), Er. reflexivity.
  - destruct (run rest s) as [s2 a2] eqn:Er. simpl.
    rewrite <- (IH Hrest s Hnone), Er. reflexivity.
  - assert (Hr := IH Hrest (fst (on_reset s)) eq_refl). simpl in Hr.
    destruct (run rest _) as [s2 a2] eqn:Er. simpl in Hr |- *. exact Hr.
Qed.

Lemma no_chain_no_orders_witness :
  option_chain (init aapl_config) = None /\
  forallb idle_event [EvBar (mk_env true 0 jan20) 150; EvReset] = true /\
  submit_count (snd (run [EvBar (mk_env true 0 jan20) 150; EvReset] (init aapl_config))) = 0%nat.
Proof.
  split; [reflexivity|]. split; [reflexivity|].
  apply no_chain_no_orders; reflexivity.
Defined.

(** In every state reached from construction, a bar with an option chain
    and a flat portfolio submits the four legs again. *)
Theorem flat_bar_always_enters (config : IronCondorConfig) (evs : list event)
    (e : env) (p : Q)
    (Hchain : option_chain (fst (run evs (init config))) <> None)
    (Hflat : is_flat e = true) :
  submit_count (snd (on_bar e p (fst (run evs (init config))))) = 4%nat.
Proof.
  destruct (run_keeps_flags evs (init config) eq_refl eq_refl) as [Ho _].
  unfold on_bar.
  destruct (option_chain (fst (run evs (init config)))); [|congruence].
  rewrite Hflat. unfold check_entry_signals. rewrite Ho.
  destruct (entry_strikes _ p) as [[[sp lp] sc] lc]. reflexivity.
Qed.

Lemma flat_bar_always_enters_witness :
  option_chain (fst (run [EvStart aapl_chain] (init aapl_config))) <> None /\
  is_flat (mk_env true 0 jan20) = true /\
  submit_count (snd (on_bar (mk_env true 0 jan20) 150
                       (fst (run [EvStart aapl_chain] (init aapl_config))))) = 4%nat.
Proof.
  assert (H : option_chain (fst (run [EvStart aapl_chain] (init aapl_config))) <> None).
  { vm_compute. discriminate. }
  split; [exact H|]. split; [reflexivity|].
  apply flat_bar_always_enters; [exact H | reflexivity].
Defined.

Lemma simple_run_after_open (bars : list Q) (s : SimpleIronCondor.SimpleIronCondor) :
  SimpleIronCondor.position_open s = true -> SimpleIronCondor.run_simple bars s = (s, []).
Proof.
  intros H. induction bars as [|p rest IH]; [reflexivity|].
  simpl. unfold SimpleIronCondor.on_bar. rewrite H, IH. reflexivity.
Qed.

(** The simplified strategy opens once in its lifetime: over any sequence
    of bars it submits four orders at the first bar and nothing after, and it
    never closes ([_check_exit_conditions] is empty). *)
Theorem simple_opens_once (config : IronCondorConfig) (p : Q) (bars : list Q) :
  submit_count (snd (SimpleIronCondor.run_simple (p :: bars) (SimpleIronCondor.init config)))
    = 4%nat /\
  SimpleIronCondor.position_open
    (fst (SimpleIronCondor.run_simple (p :: bars) (SimpleIronCondor.init config))) = true /\
  ~ In CloseAllPositions
    (snd (SimpleIronCondor.run_simple (p :: bars) (SimpleIronCondor.init config))).
Proof.
  simpl. rewrite simple_run_after_open by reflexivity. simpl.
  split; [reflexivity|]. split; [reflexivity|].
  intros [H | [H | [H | [H | []]]]]; discriminate.
Qed.

End MoreLifecycle.

(* ------------------------------------------------------------------ *)
(** ** The TA-Lib strategy *)

Section TALibProps.

Import IronCondor TALib.

(** The four gates of [on_bar]. *)
Definition gates_pass (ind : Indicators) (bar : Bar) (s : TALibStrategy) : bool :=
  initialized ind && negb (is_single_price bar)
  && (fle (min_beta s) (beta_5 ind) && fle (beta_5 ind) (max_beta s))
  && Qle_bool 100000 (bar_volume bar).

Lemma on_bar_gates (ind : Indicators) (bar : Bar) (s : TALibStrategy) :
  on_bar ind bar s =
    if gates_pass ind bar s then
      if flt (ema_20 ind) (ema_10 ind) then buy s
      else if flt (ema_10 ind) (ema_20 ind) && fle (ema_20_1 ind) (ema_10_1 ind)
              && flt (PyNum 70) (rsi_14 ind)
      then sell s
      else Some []
    else Some [].
Proof.
  unfold on_bar, gates_pass.
  destruct (initialized ind), (is_single_price bar),
           (fle (min_beta s) (beta_5 ind) && fle (beta_5 ind) (max_beta s)),
           (Qle_bool 100000 (bar_volume bar)); reflexivity.
Qed.

(** A bar is ignored (no order, no error) when the indicators are not
    initialized, when it is a single-price bar, when [BETA_5] is outside
    [[min_beta, max_beta]] (a NaN beta included) or when its volume is
    below 100000. *)
Theorem talib_gates_block (ind : Indicators) (bar : Bar) (s : TALibStrategy)
    (Hblock : initialized ind = false \/ is_single_price bar = true \/
              fle (min_beta s) (beta_5 ind) && fle (beta_5 ind) (max_beta s) = false \/
              (bar_volume bar < 100000)%Q) :
  on_bar ind bar s = Some [].
Proof.
  rewrite on_bar_gates. unfold gates_pass.
  destruct Hblock as [H | [H | [H | H]]]; rewrite ?H; simpl.
  - reflexivity.
  - rewrite andb_false_r. reflexivity.
  - rewrite andb_false_r. reflexivity.
  - assert (Hv : Qle_bool 100000 (bar_volume bar) = false).
    { destruct (Qle_bool 100000 (bar_volume bar)) eqn:E; [|reflexivity].
      apply Qle_bool_iff in E. lra. }
    rewrite Hv, andb_false_r. reflexivity.
Qed.

Definition nan_beta_indicators : Indicators :=
  mk_indicators true PyNaN (PyNum 11) (PyNum 10) (PyNum 9) (PyNum 10) (PyNum 80).

Definition busy_bar : Bar := mk_bar 100 105 99 104 200000.

Lemma talib_gates_block_witness :
  fle (min_beta (init "AAPL.NASDAQ" (PyNum (1 # 2)) (PyNum 2))) (beta_5 nan_beta_indicators)
  && fle (beta_5 nan_beta_indicators) (max_beta (init "AAPL.NASDAQ" (PyNum (1 # 2)) (PyNum 2)))
  = false /\
  on_bar nan_beta_indicators busy_bar (init "AAPL.NASDAQ" (PyNum (1 # 2)) (PyNum 2)) = Some [].
Proof.
  split; [reflexivity|]. apply talib_gates_block. right. right. left. reflexivity.
Defined.

(** Once the gates pass (and the instrument is known), the bar buys one unit
    exactly when [EMA_10 > EMA_20]; RSI plays no part in the buy, and the
    quantity is [1], not the configured [trade_size]. *)
Theorem talib_buy_iff (ind : Indicators) (bar : Bar) (s : TALibStrategy)
    (Hinst : has_instrument s = true) (Hgates : gates_pass ind bar s = true) :
  on_bar ind bar s = Some [TASubmitOrder (mk_order (ta_instrument_id s) BUY 1)] <->
  flt (ema_20 ind) (ema_10 ind) = true.
Proof.
  rewrite on_bar_gates, Hgates. unfold buy, sell. rewrite Hinst.
  destruct (flt (ema_20 ind) (ema_10 ind)); [tauto|].
  split; [|discriminate].
  destruct (_ && _ && _); intros H; discriminate H.
Qed.

Definition cross_up_indicators : Indicators :=
  mk_indicators true (PyNum 1) (PyNum 11) (PyNum 10) (PyNum 9) (PyNum 10) (PyNum 20).

Lemma talib_buy_iff_witness :
  has_instrument (mk_talib "AAPL.NASDAQ" (PyNum (1 # 2)) (PyNum 2) true) = true /\
  gates_pass cross_up_indicators busy_bar (mk_talib "AAPL.NASDAQ" (PyNum (1 # 2)) (PyNum 2) true)
  = true /\
  on_bar cross_up_indicators busy_bar (mk_talib "AAPL.NASDAQ" (PyNum (1 # 2)) (PyNum 2) true)
  = Some [TASubmitOrder (mk_order "AAPL.NASDAQ" BUY 1)].
Proof.
  split; [reflexivity|]. split; [reflexivity|].
  apply (talib_buy_iff cross_up_indicators busy_bar
           (mk_talib "AAPL.NASDAQ" (PyNum (1 # 2)) (PyNum 2) true) eq_refl eq_refl).
  reflexivity.
Defined.

(** A bar places at most one order; a sell only on a downward cross
    ([EMA_10 < EMA_20] now, [EMA_10 >= EMA_20] one bar back) with
    [RSI_14 > 70]. *)
Theorem talib_sell_requires_cross (ind : Indicators) (bar : Bar) (s : TALibStrategy)
    (acts : list ta_action) (Hbar : on_bar ind bar s = Some acts) :
  (List.length acts <= 1)%nat /\
  (forall o, In (TASubmitOrder o) acts -> order_side o = SELL ->
     gates_pass ind bar s = true /\ flt (ema_10 ind) (ema_20 ind) = true /\
     fle (ema_20_1 ind) (ema_10_1 ind) = true /\ flt (PyNum 70) (rsi_14 ind) = true).
Proof.
  rewrite on_bar_gates in Hbar. unfold buy, sell in Hbar.
  destruct (gates_pass ind bar s) eqn:Hg; [|injection Hbar as <-; split; [simpl; lia | intros o []]].
  destruct (flt (ema_20 ind) (ema_10 ind)).
  - destruct (has_instrument s); [|discriminate]. injection Hbar as <-.
    split; [simpl; lia|]. intros o [Ho | []] Hs. injection Ho as <-. discriminate Hs.
  - destruct (flt (ema_10 ind) (ema_20 ind)) eqn:H1,
             (fle (ema_20_1 ind) (ema_10_1 ind)) eqn:H2,
             (flt (PyNum 70) (rsi_14 ind)) eqn:H3; simpl in Hbar;
      try (injection Hbar as <-; split; [simpl; lia | intros o []]).
    destruct (has_instrument s); [|discriminate]. injection Hbar as <-.
    split; [simpl; lia|]. intros o _ _. repeat split.
Qed.

Definition cross_down_indicators : Indicators :=
  mk_indicators true (PyNum 1) (PyNum 9) (PyNum 10) (PyNum 11) (PyNum 10) (PyNum 80).

Lemma talib_sell_requires_cross_witness :
  on_bar cross_down_indicators busy_bar (mk_talib "AAPL.NASDAQ" (PyNum (1 # 2)) (PyNum 2) true)
  = Some [TASubmitOrder (mk_order "AAPL.NASDAQ" SELL 1)] /\
  flt (ema_10 cross_down_indicators) (ema_20 cross_down_indicators) = true.
Proof.
  assert (Hb : on_bar cross_down_indicators busy_bar
                 (mk_talib "AAPL.NASDAQ" (PyNum (1 # 2)) (PyNum 2) true)
               = Some [TASubmitOrder (mk_order "AAPL.NASDAQ" SELL 1)]) by reflexivity.
  split; [exact Hb|].
  destruct (talib_sell_requires_cross _ _ _ _ Hb) as [_ Hs].
  apply (Hs (mk_order "AAPL.NASDAQ" SELL 1)); [left; reflexivity | reflexivity].
Defined.

(** When [on_start] finds no instrument it only requests a stop (no
    indicator registration, no subscription); a bar that would then place
    an order raises instead ([self.instrument] is [None]). *)
Theorem talib_missing_instrument (s : TALibStrategy) (ind : Indicators) (bar : Bar) :
  snd (on_start false s) = [TAStop] /\
  (on_bar ind bar (fst (on_start false s)) = None <->
   exists o, on_bar ind bar (fst (on_start true s)) = Some [TASubmitOrder o]).
Proof.
  split; [reflexivity|].
  rewrite !on_bar_gates. unfold gates_pass, buy, sell, on_start. simpl.
  destruct (_ && _ && _ && _); [|split; [discriminate | intros [o Ho]; discriminate Ho]].
  destruct (flt (ema_20 ind) (ema_10 ind)); [split; [intros _; eexists; reflexivity | reflexivity]|].
  destruct (_ && _ && _); [split; [intros _; eexists; reflexivity | reflexivity]|].
  split; [discriminate | intros [o Ho]; discriminate Ho].
Qed.

End TALibProps.

(* ------------------------------------------------------------------ *)
(** ** The MACD strategy *)

Section MACDProps.

Import IronCondor MACD.

Lemma position_is_spec (s : MACDStrategy) (e : tick_env) (side : PositionSide) :
  position_is s e side = true <-> exists p, position s = Some p /\ side_of e p = side.
Proof.
  unfold position_is. destruct (position s) as [p|].
  - split.
    + intros H. exists p. split; [reflexivity|].
      destruct (side_of e p), side; try discriminate H; reflexivity.
    + intros [p' [Hp Hs]]. injection Hp as <-. rewrite Hs. destruct side; reflexivity.
  - split; [discriminate | intros [p [Hp _]]; discriminate Hp].
Qed.

Lemma Qle_bool_false (x y : Q) : Qle_bool x y = false <-> (y < x)%Q.
Proof.
  split.
  - intros H. apply Qnot_le_lt. intros Hle. apply Qle_bool_iff in Hle. congruence.
  - intros H. destruct (Qle_bool x y) eqn:E; [|reflexivity].
    apply Qle_bool_iff in E. lra.
Qed.

Lemma check_for_exit_no_submit (s : MACDStrategy) (e : tick_env) (o : MarketOrder) :
  ~ In (MSubmitOrder o) (check_for_exit s e).
Proof.
  unfold check_for_exit. destruct (position s); [|intros []].
  destruct (Qle_bool 0 _), (position_is s e _); simpl; intuition discriminate.
Qed.

(** The orders a warm tick submits: one [BUY] of [trade_size] exactly when
    the MACD value is above the threshold and the recorded position is not
    long; one [SELL] exactly when it is at most the threshold, below its
    negation and the position is not short; nothing else. In particular
    the strategy never adds to a position it already holds on that side. *)
Theorem macd_entry_orders (s : MACDStrategy) (e : tick_env) (o : MarketOrder) :
  In (MSubmitOrder o) (on_quote_tick s e) <->
  macd_initialized e = true /\ order_instrument o = m_instrument_id s /\
  order_quantity o = m_trade_size s /\
  ((order_side o = BUY /\ (entry_threshold s < macd_value e)%Q /\
    position_is s e LONG = false) \/
   (order_side o = SELL /\ (macd_value e <= entry_threshold s)%Q /\
    (macd_value e < - entry_threshold s)%Q /\ position_is s e SHORT = false)).
Proof.
  unfold on_quote_tick. destruct (macd_initialized e) eqn:Hw; simpl;
    [|split; [intros [] | intros [H _]; discriminate H]].
  rewrite in_app_iff.
  assert (Hx := check_for_exit_no_submit s e o).
  destruct o as [oi os oq]; simpl.
  unfold check_for_entry.
  destruct (Qle_bool (macd_value e) (entry_threshold s)) eqn:H1; simpl.
  - apply Qle_bool_iff in H1.
    destruct (Qle_bool (- entry_threshold s) (macd_value e)) eqn:H2; simpl.
    + apply Qle_bool_iff in H2. split.
      * intros [[]|Hin]; contradiction.
      * intros [_ [_ [_ [[_ [Hlt _]] | [_ [_ [Hlt _]]]]]]]; lra.
    + apply Qle_bool_false in H2.
      destruct (position_is s e SHORT) eqn:H3; simpl.
      * split; [intros [[]|Hin]; contradiction|].
        intros [_ [_ [_ [[_ [Hlt _]] | [_ [_ [_ Hf]]]]]]]; [lra | discriminate Hf].
      * split.
        -- intros [[Ho|[]]|Hin]; [|contradiction]. injection Ho as <- <- <-.
           intuition.
        -- intros [_ [-> [-> [[_ [Hlt _]] | [-> _]]]]]; [lra|]. left; left; reflexivity.
  - apply Qle_bool_false in H1.
    destruct (position_is s e LONG) eqn:H3; simpl.
    + split; [intros [[]|Hin]; contradiction|].
      intros [_ [_ [_ [[_ [_ Hf]] | [_ [Hle _]]]]]]; [discriminate Hf | lra].
    + split.
      * intros [[Ho|[]]|Hin]; [|contradiction]. injection Ho as <- <- <-. intuition.
      * intros [_ [-> [-> [[-> _] | [_ [Hle _]]]]]]; [left; left; reflexivity | lra].
Qed.

(** The dead band: while [-entry_threshold <= value <= entry_threshold] no
    order is submitted. *)
Theorem macd_dead_band (s : MACDStrategy) (e : tick_env)
    (Hlo : (- entry_threshold s <= macd_value e)%Q)
    (Hhi : (macd_value e <= entry_threshold s)%Q) :
  forall o, ~ In (MSubmitOrder o) (on_quote_tick s e).
Proof.
  intros o Hin. apply macd_entry_orders in Hin.
  destruct Hin as [_ [_ [_ [[_ [Hlt _]] | [_ [_ [Hlt _]]]]]]]; lra.
Qed.

Definition quiet_env : tick_env := mk_tick_env true (1 # 100000) (fun _ => LONG).

Lemma macd_dead_band_witness :
  (- entry_threshold (init "EUR/USD.SIM" (5 # 100000) 100000) <= macd_value quiet_env)%Q /\
  (macd_value quiet_env <= entry_threshold (init "EUR/USD.SIM" (5 # 100000) 100000))%Q /\
  ~ In (MSubmitOrder (mk_order "EUR/USD.SIM" BUY 100000))
       (on_quote_tick (init "EUR/USD.SIM" (5 # 100000) 100000) quiet_env).
Proof.
  split; [unfold Qle; simpl; lia|]. split; [unfold Qle; simpl; lia|].
  apply macd_dead_band; unfold Qle; simpl; lia.
Defined.

(** A warm tick closes only the position recorded by [on_event]: a long one
    when the value is negative, a short one when it is at least zero. *)
Theorem macd_exit_closes (s : MACDStrategy) (e : tick_env) (p : Z)
    (Hin : In (MClosePosition p) (on_quote_tick s e)) :
  macd_initialized e = true /\ position s = Some p /\
  ((side_of e p = LONG /\ (macd_value e < 0)%Q) \/
   (side_of e p = SHORT /\ (0 <= macd_value e)%Q)).
Proof.
  unfold on_quote_tick in Hin. destruct (macd_initialized e) eqn:Hw; [|destruct Hin].
  split; [reflexivity|]. simpl in Hin. apply in_app_iff in Hin.
  destruct Hin as [Hin | Hin].
  - exfalso. unfold check_for_entry in Hin.
    destruct (negb _), (position_is _ _ _); try destruct (negb _);
      try destruct (position_is _ _ _); simpl in Hin; intuition discriminate.
  - unfold check_for_exit in Hin. destruct (position s) as [q|] eqn:Hp; [|destruct Hin].
    destruct (Qle_bool 0 (macd_value e)) eqn:H0.
    + destruct (position_is s e SHORT) eqn:Hs; [|destruct Hin].
      destruct Hin as [Hq|[]]. injection Hq as <-. split; [reflexivity|]. right.
      apply position_is_spec in Hs. destruct Hs as [p' [Hp' Hside]].
      rewrite Hp in Hp'. injection Hp' as <-. split; [exact Hside|].
      apply Qle_bool_iff. exact H0.
    + destruct (position_is s e LONG) eqn:Hs; [|destruct Hin].
      destruct Hin as [Hq|[]]. injection Hq as <-. split; [reflexivity|]. left.
      apply position_is_spec in Hs. destruct Hs as [p' [Hp' Hside]].
      rewrite Hp in Hp'. injection Hp' as <-. split; [exact Hside|].
      apply Qle_bool_false. exact H0.
Qed.

Definition short_env : tick_env := mk_tick_env true (1 # 1000) (fun _ => SHORT).

Definition opened_macd : MACDStrategy :=
  on_event (PositionOpened 7) (init "EUR/USD.SIM" (5 # 100000) 100000).

Lemma macd_exit_closes_witness :
  In (MClosePosition 7) (on_quote_tick opened_macd short_env) /\
  side_of short_env 7 = SHORT.
Proof.
  assert (Hin : In (MClosePosition 7) (on_quote_tick opened_macd short_env))
    by (simpl; auto).
  split; [exact Hin|].
  destruct (macd_exit_closes opened_macd short_env 7 Hin) as [_ [_ [[_ Hneg] | [Hs _]]]].
  - exfalso. unfold Qlt in Hneg. simpl in Hneg. lia.
  - exact Hs.
Defined.

(** A reversal from short: with a non-negative threshold, a warm tick above
    the threshold while the recorded position is short submits the [BUY]
    first and then closes the short position, in that order. *)
Theorem macd_reversal_from_short (s : MACDStrategy) (e : tick_env) (p : Z)
    (Hwarm : macd_initialized e = true) (Hpos : position s = Some p)
    (Hside : side_of e p = SHORT) (Hthr : (0 <= entry_threshold s)%Q)
    (Hv : (entry_threshold s < macd_value e)%Q) :
  on_quote_tick s e =
    [MSubmitOrder (mk_order (m_instrument_id s) BUY (m_trade_size s)); MClosePosition p].
Proof.
  unfold on_quote_tick, check_for_entry, check_for_exit, position_is.
  rewrite Hwarm, Hpos, Hside. simpl.
  assert (H1 : Qle_bool (macd_value e) (entry_threshold s) = false)
    by (apply Qle_bool_false; exact Hv).
  assert (H2 : Qle_bool 0 (macd_value e) = true) by (apply Qle_bool_iff; lra).
  rewrite H1, H2. reflexivity.
Qed.

Lemma macd_reversal_from_short_witness :
  on_quote_tick opened_macd short_env =
    [MSubmitOrder (mk_order "EUR/USD.SIM" BUY 100000); MClosePosition 7].
Proof.
  apply (macd_reversal_from_short opened_macd short_env 7); try reflexivity;
    unfold Qle, Qlt; simpl; lia.
Defined.

(** A held position is left alone while the MACD value stays on its side
    of zero: with a non-negative threshold, a tick neither adds to nor
    closes a long position while the value is at least [0], nor a short one
    while it is below [0]. *)
Theorem macd_holds_position (s : MACDStrategy) (e : tick_env) (p : Z)
    (Hpos : position s = Some p) (Hthr : (0 <= entry_threshold s)%Q) :
  (side_of e p = LONG -> (0 <= macd_value e)%Q -> on_quote_tick s e = []) /\
  (side_of e p = SHORT -> (macd_value e < 0)%Q -> on_quote_tick s e = []).
Proof.
  unfold on_quote_tick, check_for_entry, check_for_exit, position_is. rewrite Hpos.
  split; intros Hs Hv; rewrite Hs; destruct (macd_initialized e); try reflexivity;
    cbn [negb app];
    destruct (Qle_bool (macd_value e) (entry_threshold s)) eqn:H1,
             (Qle_bool (- entry_threshold s) (macd_value e)) eqn:H2,
             (Qle_bool 0 (macd_value e)) eqn:H3; cbn; try reflexivity;
    repeat match goal with
           | H : Qle_bool _ _ = true |- _ => apply Qle_bool_iff in H
           | H : Qle_bool _ _ = false |- _ => apply Qle_bool_false in H
           end; lra.
Qed.

Lemma macd_holds_position_witness :
  position opened_macd = Some 7%Z /\ side_of quiet_env 7 = LONG /\
  on_quote_tick opened_macd quiet_env = [].
Proof.
  split; [reflexivity|]. split; [reflexivity|].
  apply (proj1 (macd_holds_position opened_macd quiet_env 7 eq_refl
                  ltac:(unfold Qle; simpl; lia))); [reflexivity | unfold Qle; simpl; lia].
Defined.

End MACDProps.

(* ------------------------------------------------------------------ *)
(** ** Decimal arithmetic in the default context *)

Section DecimalRounding.



Local Open Scope Q_scope.











End DecimalRounding.

(* ------------------------------------------------------------------ *)
(** ** Strike rounding under [Decimal] arithmetic *)

Section DecimalStrikes.

Import IronCondor.
Local Open Scope Q_scope.




End DecimalStrikes.
